(** * train_from_minio: the daily "list keys, then train" workflow

    A shallow embedding of [airflow/dags/train_from_minio.py].  The module
    reads one environment variable when it is imported, declares a DAG with
    two tasks, and the tasks talk to the outside through exactly two
    operations: the S3 hook's [list_keys] and [print].

    Python computations are modelled in a state-and-exception monad over a
    [World] that holds the process environment, the heap of list objects,
    what was written to standard output, the listing requests sent through
    the hook, and the state of the remote object store.  The hook itself and
    the interpreter's [repr] of a string are not part of the repository;
    the class [External] collects them. *)

From Stdlib Require Import String Ascii List.
From stdpp Require Import base option list strings pretty gmap.

Local Open Scope string_scope.
Local Open Scope list_scope.

(** ** Python values and outcomes *)

(** An exception object, as raised by the hook. *)
Record PyExc := mkExc { exc_type : string; exc_msg : string }.

(** The result of running a piece of Python: a value, a raised exception, or
    [Stuck] when the model is asked to follow a reference to no object (no
    Python execution does that). *)
Inductive Outcome (A : Type) : Type :=
| Returns (a : A)
| Raises (e : PyExc)
| Stuck.
Arguments Returns {A} a.
Arguments Raises {A} e.
Arguments Stuck {A}.

(** A list object lives in the heap and is named by its position there;
    Python variables hold such references. *)
Abbreviation loc := nat.

(** The values that the two f-strings of the module interpolate. *)
Inductive pyval :=
| PNone
| PStr (s : string)
| PInt (n : nat)
| PList (items : list string).

(** What [S3Hook.list_keys] hands back: [None], a list of keys, or an
    exception. *)
Inductive HookReply :=
| ReplyNone
| ReplyKeys (ks : list string)
| ReplyError (e : PyExc).

(** One call of [list_keys], as the hook receives it. *)
Record ListRequest := mkRequest {
  req_conn : string;
  req_bucket : string;
  req_prefix : string
}.

(** ** The DAG declaration *)

Record Date := mkDate { year : nat; month : nat; day : nat }.

(** An argument of a task call inside the [with DAG] block; the module only
    ever passes the output of another task. *)
Inductive Arg :=
| XComArg (producer : string).

Record Operator := mkOperator {
  task_id : string;
  op_args : list Arg
}.

Record DAG := mkDAG {
  dag_id : string;
  start_date : Date;
  schedule_interval : string;
  catchup : bool;
  tags : list string;
  tasks : list Operator
}.

(** Calling a [@task] function inside the block adds an operator named after
    the function and returns a handle on its output. *)
Definition task_call (name : string) (args : list Arg) (d : DAG) : Arg * DAG :=
  (XComArg name,
   mkDAG (dag_id d) (start_date d) (schedule_interval d) (catchup d) (tags d)
         (tasks d ++ [mkOperator name args])).

(** The tasks an operator waits for: the producers of its arguments. *)
Definition upstream (op : Operator) : list string :=
  (λ a, match a with XComArg p => p end) <$> op_args op.

(** The dependency edges of a DAG, producer first. *)
Definition edges (d : DAG) : list (string * string) :=
  op ← tasks d; (λ p, (p, task_id op)) <$> upstream op.

(** Lines 11-31: the [with DAG(...)] block.  The two [def]s declare the
    task functions; line 31 calls them. *)
Definition declare_dag : DAG :=
  let d0 := mkDAG "train_from_minio" (mkDate 2025 1 1) "@daily" false
                  ["ml"; "minio"] [] in
  let '(keys, d1) := task_call "fetch_latest_partition" [] d0 in
  let '(_, d2) := task_call "train_model" [keys] d1 in
  d2.

(** ** What the module takes from outside *)

(** The state of the remote object store, the listing operation the hook
    performs on it for a connection id, a bucket and a prefix, and the
    interpreter's [repr] of a [str].  Listing reads the store: it answers
    from the state it finds and hands back no new state. *)
Class External := {
  Store : Type;
  s3_list_keys : string → string → string → Store → HookReply;
  repr_str : string → string
}.

(** ** Formatting *)

Section Program.

Context `{External}.

Definition join (sep : string) (parts : list string) : string :=
  match parts with
  | [] => ""
  | p :: ps => fold_left (λ acc q, acc +:+ sep +:+ q) ps p
  end.

(** [format(v, "")], which is what [{v}] does inside an f-string. *)
Definition py_format (v : pyval) : string :=
  match v with
  | PNone => "None"
  | PStr s => s
  | PInt n => pretty n
  | PList items => "[" +:+ join ", " (repr_str <$> items) +:+ "]"
  end.

(** An f-string is a sequence of literal text and interpolated values. *)
Inductive fpart :=
| Lit (s : string)
| Val (v : pyval).

Definition fstring (parts : list fpart) : string :=
  fold_right (λ p acc, match p with Lit s => s | Val v => py_format v end +:+ acc)
             "" parts.

(** ** The world and the monad *)

Record World := mkWorld {
  environ : gmap string string;
  heap : list (list string);
  stdout : list string;
  requests : list ListRequest;
  objects : Store
}.

(** The three ways the module changes the world. *)
Definition add_object (items : list string) (w : World) : World :=
  mkWorld (environ w) (heap w ++ [items]) (stdout w) (requests w) (objects w).

Definition add_line (s : string) (w : World) : World :=
  mkWorld (environ w) (heap w) (stdout w ++ [s]) (requests w) (objects w).

Definition add_request (q : ListRequest) (w : World) : World :=
  mkWorld (environ w) (heap w) (stdout w) (requests w ++ [q]) (objects w).

(** A change of the process environment made from outside the module. *)
Definition set_environ (e : gmap string string) (w : World) : World :=
  mkWorld e (heap w) (stdout w) (requests w) (objects w).

Definition M (A : Type) : Type := World → Outcome A * World.

Definition ret {A} (a : A) : M A := λ w, (Returns a, w).

(** Sequencing: an exception (or a stuck state) in the first part skips the
    rest, as there is no [try] in the module. *)
Definition bind {A B} (k : A → M B) (c : M A) : M B :=
  λ w, match c w with
       | (Returns a, w') => k a w'
       | (Raises e, w') => (Raises e, w')
       | (Stuck, w') => (Stuck, w')
       end.

#[global] Instance M_ret : MRet M := @ret.
#[global] Instance M_bind : MBind M := @bind.

(** *** Primitive operations *)

(** [os.getenv(key, default)]. *)
Definition getenv (key dflt : string) : M string :=
  λ w, (Returns (default dflt (environ w !! key)), w).

(** A list display or a slice creates a new list object. *)
Definition alloc (items : list string) : M loc :=
  λ w, (Returns (length (heap w)), add_object items w).

Definition deref (r : loc) : M (list string) :=
  λ w, match heap w !! r with
       | Some items => (Returns items, w)
       | None => (Stuck, w)
       end.

(** [len(r)]. *)
Definition py_len (r : loc) : M nat :=
  items ← deref r; ret (length items).

(** [r[:stop]] for a literal [stop >= 0]. *)
Definition py_slice_to (r : loc) (stop : nat) : M loc :=
  items ← deref r; alloc (take stop items).

(** [print(s)]: one more line on standard output. *)
Definition print (s : string) : M unit :=
  λ w, (Returns (), add_line s w).

(** *** The hook *)

Record S3Hook := mkHook { aws_conn_id : string }.

(** [hook.list_keys(bucket_name=..., prefix=...)]: the request goes out; the
    answer is [None], a new list object, or an exception. *)
Definition list_keys (hook : S3Hook) (bucket_name prefix : string)
  : M (option loc) :=
  λ w,
    let w1 := add_request (mkRequest (aws_conn_id hook) bucket_name prefix) w in
    match s3_list_keys (aws_conn_id hook) bucket_name prefix (objects w) with
    | ReplyNone => (Returns None, w1)
    | ReplyKeys ks => (r ← alloc ks; ret (Some r)) w1
    | ReplyError e => (Raises e, w1)
    end.

(** [x or []] where [x] is [None] or a list: [x] itself when it is a
    non-empty list, a new empty list otherwise. *)
Definition or_empty_list (x : option loc) : M loc :=
  match x with
  | None => alloc []
  | Some r =>
      items ← deref r;
      match items with
      | [] => alloc []
      | _ :: _ => ret r
      end
  end.

(** ** The module *)

(** The module's global constant. *)
Record Globals := mkGlobals { BUCKET : string }.

(** Line 9, run once when the module is imported. *)
Definition import_module : M Globals :=
  b ← getenv "MINIO_BUCKET" "truck-telemetry";
  ret (mkGlobals b).

(** Lines 19-24.  [ds] is [None] (the default) or the run date. *)
Definition fetch_latest_partition (g : Globals) (ds : option string) : M loc :=
  let hook := mkHook "minio_s3" in
  let ds_val := match ds with None => PNone | Some s => PStr s end in
  x ← list_keys hook (BUCKET g) (fstring [Lit "TRUCK-001/"; Val ds_val; Lit "/"]);
  keys ← or_empty_list x;
  ret keys.

(** Lines 26-29.  The function has no [return]: it yields [None], here the
    unit value. *)
Definition train_model (keys : loc) : M unit :=
  n ← py_len keys;
  preview ← py_slice_to keys 5;
  shown ← deref preview;
  print (fstring [Lit "Training on "; Val (PInt n); Lit " objects: ";
                  Val (PList shown)]).

(** Line 31: the output of the first task is the input of the second. *)
Definition pipeline (g : Globals) (ds : option string) : M unit :=
  keys ← fetch_latest_partition g ds;
  train_model keys.

(** The listing requests that running [c] from [w] adds. *)
Definition issued {A} (c : M A) (w : World) : list ListRequest :=
  drop (length (requests w)) (requests (c w).2).

(** The lines that running [c] from [w] prints. *)
Definition printed {A} (c : M A) (w : World) : list string :=
  drop (length (stdout w)) (stdout (c w).2).

End Program.

(** ** Reading the printed line back *)

Definition is_digit (c : ascii) : bool :=
  (48 <=? nat_of_ascii c)%nat && (nat_of_ascii c <=? 57)%nat.

Fixpoint leading_digits (s : string) : string :=
  match s with
  | String c s' => if is_digit c then String c (leading_digits s') else ""
  | EmptyString => ""
  end.

Fixpoint strip_prefix (pre s : string) : option string :=
  match pre, s with
  | EmptyString, _ => Some s
  | String a pre', String b s' =>
      if Ascii.eqb a b then strip_prefix pre' s' else None
  | String _ _, EmptyString => None
  end.

(** The count a reader finds on a line of the training stub: the digits that
    follow "Training on ". *)
Definition count_field (line : string) : option string :=
  leading_digits <$> strip_prefix "Training on " line.

(** ** An object store to run the tasks on *)

(** Buckets with their keys.  Listing a bucket that does not exist is an
    error; a listing that matches nothing yields [None]. *)
Definition demo_list_keys (conn bucket prefix : string)
    (store : list (string * list string)) : HookReply :=
  match list_find (λ b, b.1 = bucket) store with
  | None => ReplyError (mkExc "ClientError" "NoSuchBucket")
  | Some (_, (_, ks)) =>
      match filter (λ k, String.prefix prefix k = true) ks with
      | [] => ReplyNone
      | k :: ks' => ReplyKeys (k :: ks')
      end
  end.

Definition demo : External := {|
  Store := list (string * list string);
  s3_list_keys := demo_list_keys;
  repr_str := λ s, "'" +:+ s +:+ "'"
|}.

Definition demo_objects : list (string * list string) :=
  [("truck-telemetry",
    ["TRUCK-001/2025-01-01/a"; "TRUCK-001/2025-01-01/b";
     "TRUCK-001/2025-01-01/c"; "TRUCK-001/2025-01-01/d";
     "TRUCK-001/2025-01-01/e"; "TRUCK-001/2025-01-01/f";
     "TRUCK-001/2025-01-02/a"; "TRUCK-002/2025-01-01/a"]);
   ("staging", ["TRUCK-001/2025-01-01/z"])].

Definition demo_world : @World demo :=
  @mkWorld demo ∅ [["x"; "y"]] [] [] demo_objects.

(** A hook that answers every listing with an empty list rather than
    [None], over a store with nothing in it. *)
Definition demo_empty : External := {|
  Store := unit;
  s3_list_keys := λ _ _ _ _, ReplyKeys [];
  repr_str := λ s, "'" +:+ s +:+ "'"
|}.

Definition demo_empty_world : @World demo_empty :=
  @mkWorld demo_empty ∅ [["x"; "y"]] [] [] ().

(** * Properties *)

(** ** Decimal numerals *)

Lemma is_digit_pretty_N_char (x : N) : is_digit (pretty_N_char x) = true.
Proof. unfold pretty_N_char. repeat case_match; reflexivity. Qed.

Lemma leading_digits_pretty_N_go (x : N) (s rest : string) :
  leading_digits (s +:+ String " " rest) = s →
  leading_digits (pretty_N_go x s +:+ String " " rest) = pretty_N_go x s.
Proof.
  revert s. induction (N.lt_wf_0 x) as [x _ IH]; intros s Hs.
  destruct (decide (0 < x)%N) as [Hx|Hx].
  - rewrite pretty_N_go_step by done. apply IH.
    + by apply N.div_lt.
    + simpl. by rewrite is_digit_pretty_N_char, Hs.
  - replace x with 0%N by lia. by rewrite pretty_N_go_0.
Qed.

Lemma leading_digits_pretty (n : nat) (rest : string) :
  leading_digits (pretty n +:+ String " " rest) = pretty n.
Proof.
  unfold pretty, pretty_nat, pretty, pretty_N. case_decide.
  - reflexivity.
  - by apply leading_digits_pretty_N_go.
Qed.

Lemma strip_prefix_app (pre s : string) : strip_prefix pre (pre +:+ s) = Some s.
Proof.
  induction pre as [|a pre IH]; [done|].
  simpl. by rewrite Ascii.eqb_refl.
Qed.

Lemma count_field_line (n : nat) (rest : string) :
  count_field ("Training on " +:+ pretty n +:+ " objects: " +:+ rest)
  = Some (pretty n).
Proof.
  unfold count_field. rewrite strip_prefix_app. simpl. f_equal.
  apply (leading_digits_pretty n ("objects: " +:+ rest)).
Qed.

(** ** Running the two tasks *)

Section Runs.

Context `{External}.

Lemma lookup_new_object (h : list (list string)) (items : list string) :
  (h ++ [items]) !! length h = Some items.
Proof. by apply list_lookup_middle. Qed.

Lemma take_5_min (l : list string) : take 5 l = take (5 `min` length l) l.
Proof.
  destruct (decide (5 ≤ length l)%nat).
  - by rewrite Nat.min_l.
  - rewrite Nat.min_r by lia. by rewrite !take_ge by lia.
Qed.

(** The line the stub prints for a list of keys. *)
Lemma train_model_run (w : World) (keys : loc) (l : list string) :
  heap w !! keys = Some l →
  train_model keys w =
    (Returns (),
     add_line (fstring [Lit "Training on "; Val (PInt (length l));
                        Lit " objects: "; Val (PList (take 5 l))])
              (add_object (take 5 l) w)).
Proof.
  intros Hl.
  unfold train_model, py_len, py_slice_to, mbind, M_bind, bind, deref, alloc,
    print, mret, M_ret, ret.
  rewrite !Hl. cbn [heap add_object].
  rewrite (lookup_new_object (heap w) (take 5 l)). reflexivity.
Qed.

Lemma train_model_stuck (w : World) (keys : loc) :
  heap w !! keys = None → train_model keys w = (Stuck, w).
Proof.
  intros Hl.
  unfold train_model, py_len, mbind, M_bind, bind, deref.
  by rewrite Hl.
Qed.

(** What one run of the fetch task does, by the hook's answer. *)
Lemma fetch_latest_partition_run (g : Globals) (ds : option string) (w : World) :
  let prefix := "TRUCK-001/" +:+ default "None" ds +:+ "/" in
  let w1 := add_request (mkRequest "minio_s3" (BUCKET g) prefix) w in
  fetch_latest_partition g ds w =
    match s3_list_keys "minio_s3" (BUCKET g) prefix (objects w) with
    | ReplyNone => (Returns (length (heap w)), add_object [] w1)
    | ReplyKeys [] =>
        (Returns (S (length (heap w))), add_object [] (add_object [] w1))
    | ReplyKeys (k :: ks) => (Returns (length (heap w)), add_object (k :: ks) w1)
    | ReplyError e => (Raises e, w1)
    end.
Proof.
  intros prefix w1.
  assert (fstring [Lit "TRUCK-001/";
                   Val match ds with None => PNone | Some s => PStr s end;
                   Lit "/"] = prefix) as Hp.
  { unfold prefix. destruct ds; reflexivity. }
  unfold fetch_latest_partition. rewrite Hp.
  unfold list_keys, or_empty_list, mbind, M_bind, bind, deref, alloc, mret,
    M_ret, ret.
  cbn [aws_conn_id]. fold w1.
  destruct (s3_list_keys "minio_s3" (BUCKET g) prefix (objects w))
    as [|[|k ks]|e]; try reflexivity; subst w1.
  - cbn [heap add_object add_request].
    rewrite (lookup_new_object (heap w) []).
    cbn [heap add_object length]. rewrite length_app. cbn [length].
    by rewrite Nat.add_1_r.
  - cbn [heap add_object add_request].
    by rewrite (lookup_new_object (heap w) (k :: ks)).
Qed.

Lemma import_module_run (w : World) :
  import_module w =
    (Returns (mkGlobals (default "truck-telemetry"
                                 (environ w !! "MINIO_BUCKET"))), w).
Proof. reflexivity. Qed.

Lemma issued_fetch (g : Globals) (ds : option string) (w : World) :
  issued (fetch_latest_partition g ds) w =
    [mkRequest "minio_s3" (BUCKET g) ("TRUCK-001/" +:+ default "None" ds +:+ "/")].
Proof.
  unfold issued. rewrite fetch_latest_partition_run.
  destruct (s3_list_keys _ _ _ _) as [|[|k ks]|e]; cbn [snd requests add_object
    add_request]; by rewrite drop_app_length.
Qed.

End Runs.

Lemma append_empty_r (s : string) : s +:+ "" = s.
Proof. induction s as [|a s IH]; [done|]. exact (f_equal (String a) IH). Qed.

Lemma printed_train_model `{External} (w : World) (keys : loc)
    (l : list string) :
  heap w !! keys = Some l →
  printed (train_model keys) w =
    [fstring [Lit "Training on "; Val (PInt (length l)); Lit " objects: ";
              Val (PList (take 5 l))]].
Proof.
  intros Hl. unfold printed. rewrite (train_model_run w keys l Hl).
  cbn [snd stdout add_line add_object]. by rewrite drop_app_length.
Qed.

(** ** The training stub *)

(** C1.  Called on any list of key strings, the empty one included,
    [train_model] returns normally and prints one line.  The line starts
    with "Training on " followed by the length of the list in decimal, and
    the number a reader finds in that place is the length and no other. *)
Theorem train_model_prints_count `{External} (w : World) (keys : loc)
    (l : list string) :
  heap w !! keys = Some l →
  ∃ line : string,
    (train_model keys w).1 = Returns () ∧
    printed (train_model keys) w = [line] ∧
    line = "Training on " +:+ pretty (length l) +:+ " objects: "
           +:+ py_format (PList (take 5 l)) ∧
    ∀ n : nat, count_field line = Some (pretty n) ↔ n = length l.
Proof.
  intros Hl.
  exists ("Training on " +:+ pretty (length l) +:+ " objects: "
          +:+ py_format (PList (take 5 l))).
  split; [by rewrite (train_model_run w keys l Hl)|].
  split.
  { rewrite (printed_train_model w keys l Hl). unfold fstring, fold_right.
    cbn [py_format]. by rewrite append_empty_r. }
  split; [done|].
  intros n. rewrite count_field_line. split.
  - intros [= Hn]. symmetry. by apply (inj pretty).
  - by intros ->.
Qed.

Lemma train_model_prints_count_witness :
  heap demo_world !! 0 = Some ["x"; "y"] ∧
  ∃ line : string,
    (@train_model demo 0 demo_world).1 = Returns () ∧
    printed (train_model 0) demo_world = [line] ∧
    line = "Training on " +:+ pretty (length ["x"; "y"]) +:+ " objects: "
           +:+ @py_format demo (PList (take 5 ["x"; "y"])) ∧
    ∀ n : nat, count_field line = Some (pretty n) ↔ n = length ["x"; "y"].
Proof.
  split; [reflexivity|].
  apply (@train_model_prints_count demo demo_world 0 ["x"; "y"]).
  reflexivity.
Defined.

(** C6.  The preview that [train_model] prints is the list made of the first
    [min 5 (len keys)] elements of its input, in the input's order: a prefix
    of the input of length at most five. *)
Theorem train_model_preview `{External} (w : World) (keys : loc)
    (l : list string) :
  heap w !! keys = Some l →
  ∃ shown : list string,
    printed (train_model keys) w =
      [fstring [Lit "Training on "; Val (PInt (length l)); Lit " objects: ";
                Val (PList shown)]] ∧
    shown = take (5 `min` length l) l ∧
    length shown = 5 `min` length l ∧
    shown `prefix_of` l ∧
    ∀ i : nat, i < 5 `min` length l → shown !! i = l !! i.
Proof.
  intros Hl. exists (take 5 l).
  split; [by apply printed_train_model|].
  split; [by apply take_5_min|].
  split; [by apply length_take|].
  split; [by apply prefix_take|].
  intros i Hi. apply lookup_take_lt. lia.
Qed.

Lemma train_model_preview_witness :
  heap (add_object ["a"; "b"; "c"; "d"; "e"; "f"; "g"] demo_world) !! 1
    = Some ["a"; "b"; "c"; "d"; "e"; "f"; "g"] ∧
  ∃ shown : list string,
    printed (@train_model demo 1)
            (add_object ["a"; "b"; "c"; "d"; "e"; "f"; "g"] demo_world) =
      [@fstring demo
         [Lit "Training on ";
          Val (PInt (length ["a"; "b"; "c"; "d"; "e"; "f"; "g"]));
          Lit " objects: "; Val (PList shown)]] ∧
    shown = take (5 `min` length ["a"; "b"; "c"; "d"; "e"; "f"; "g"])
                 ["a"; "b"; "c"; "d"; "e"; "f"; "g"] ∧
    length shown = 5 `min` length ["a"; "b"; "c"; "d"; "e"; "f"; "g"] ∧
    shown `prefix_of` ["a"; "b"; "c"; "d"; "e"; "f"; "g"] ∧
    ∀ i : nat, i < 5 `min` length ["a"; "b"; "c"; "d"; "e"; "f"; "g"] →
               shown !! i = ["a"; "b"; "c"; "d"; "e"; "f"; "g"] !! i.
Proof.
  split; [reflexivity|].
  apply (@train_model_preview demo
           (add_object ["a"; "b"; "c"; "d"; "e"; "f"; "g"] demo_world) 1
           ["a"; "b"; "c"; "d"; "e"; "f"; "g"]).
  reflexivity.
Defined.

(** ** The fetch task *)

(** C2.  For a run date [ds], the one listing call of
    [fetch_latest_partition] goes to the bucket that the import resolved
    from MINIO_BUCKET, with the prefix "TRUCK-001/" + ds + "/". *)
Theorem fetch_lists_run_date_prefix `{External} (w0 w : World) (ds : string) :
  ∃ g : Globals,
    import_module w0 = (Returns g, w0) ∧
    issued (fetch_latest_partition g (Some ds)) w =
      [mkRequest "minio_s3"
                 (default "truck-telemetry" (environ w0 !! "MINIO_BUCKET"))
                 ("TRUCK-001/" +:+ ds +:+ "/")].
Proof.
  eexists. split; [apply import_module_run|].
  by rewrite issued_fetch.
Qed.

(** C3.  The bucket of the listing call is "truck-telemetry" when
    MINIO_BUCKET is not in the environment at import, and the value of
    MINIO_BUCKET when it is. *)
Theorem bucket_default_and_override `{External} (w0 w : World)
    (ds : option string) :
  ∃ g : Globals,
    import_module w0 = (Returns g, w0) ∧
    (environ w0 !! "MINIO_BUCKET" = None →
       req_bucket <$> issued (fetch_latest_partition g ds) w
       = ["truck-telemetry"]) ∧
    (∀ v : string, environ w0 !! "MINIO_BUCKET" = Some v →
       req_bucket <$> issued (fetch_latest_partition g ds) w = [v]).
Proof.
  eexists. split; [apply import_module_run|].
  rewrite issued_fetch. cbn [fmap list_fmap req_bucket BUCKET].
  split; [intros ->|intros v ->]; reflexivity.
Qed.

Lemma bucket_default_and_override_witness :
  (environ demo_world !! "MINIO_BUCKET" = None ∧
   ∃ g : Globals,
     import_module demo_world = (Returns g, demo_world) ∧
     req_bucket <$> issued (fetch_latest_partition g (Some "2025-01-01"))
                           demo_world
     = ["truck-telemetry"]) ∧
  (environ (set_environ {["MINIO_BUCKET" := "staging"]} demo_world)
     !! "MINIO_BUCKET" = Some "staging" ∧
   ∃ g : Globals,
     import_module (set_environ {["MINIO_BUCKET" := "staging"]} demo_world)
     = (Returns g, set_environ {["MINIO_BUCKET" := "staging"]} demo_world) ∧
     req_bucket <$> issued (fetch_latest_partition g (Some "2025-01-01"))
                           demo_world
     = ["staging"]).
Proof.
  split.
  - split; [reflexivity|].
    destruct (@bucket_default_and_override demo demo_world demo_world
                (Some "2025-01-01")) as (g & Hg & Hunset & _).
    exists g. split; [exact Hg|]. apply Hunset. reflexivity.
  - split; [reflexivity|].
    destruct (@bucket_default_and_override demo
                (set_environ {["MINIO_BUCKET" := "staging"]} demo_world)
                demo_world (Some "2025-01-01")) as (g & Hg & _ & Hset).
    exists g. split; [exact Hg|]. apply Hset. reflexivity.
Defined.

(** C4.  When [list_keys] returns [None], [fetch_latest_partition] returns
    a new, empty list.  When [list_keys] raises, the exception leaves
    [fetch_latest_partition] as it came: nothing catches it, and no list is
    made. *)
Theorem fetch_none_defaults_to_empty `{External} (g : Globals)
    (ds : option string) (w : World) :
  let prefix := "TRUCK-001/" +:+ default "None" ds +:+ "/" in
  (s3_list_keys "minio_s3" (BUCKET g) prefix (objects w) = ReplyNone →
     ∃ r : loc,
       (fetch_latest_partition g ds w).1 = Returns r ∧
       heap (fetch_latest_partition g ds w).2 !! r = Some [] ∧
       heap w !! r = None) ∧
  (∀ e : PyExc,
     s3_list_keys "minio_s3" (BUCKET g) prefix (objects w) = ReplyError e →
     (fetch_latest_partition g ds w).1 = Raises e ∧
     heap (fetch_latest_partition g ds w).2 = heap w).
Proof.
  intros prefix. split.
  - intros Hr. exists (length (heap w)).
    rewrite fetch_latest_partition_run. fold prefix. rewrite Hr.
    cbn [fst snd heap add_object add_request].
    split; [done|]. split; [apply lookup_new_object|].
    by apply lookup_ge_None.
  - intros e Hr. rewrite fetch_latest_partition_run. fold prefix.
    by rewrite Hr.
Qed.

Lemma fetch_none_defaults_to_empty_witness :
  (@s3_list_keys demo "minio_s3" "truck-telemetry"
     ("TRUCK-001/" +:+ default "None" (Some "2024-12-31") +:+ "/")
     (objects demo_world) = ReplyNone ∧
   ∃ r : loc,
     (fetch_latest_partition (mkGlobals "truck-telemetry") (Some "2024-12-31")
                             demo_world).1 = Returns r ∧
     heap (fetch_latest_partition (mkGlobals "truck-telemetry")
                                  (Some "2024-12-31") demo_world).2 !! r
     = Some [] ∧
     heap demo_world !! r = None) ∧
  (@s3_list_keys demo "minio_s3" "missing"
     ("TRUCK-001/" +:+ default "None" (Some "2024-12-31") +:+ "/")
     (objects demo_world) = ReplyError (mkExc "ClientError" "NoSuchBucket") ∧
   (fetch_latest_partition (mkGlobals "missing") (Some "2024-12-31")
                           demo_world).1
   = Raises (mkExc "ClientError" "NoSuchBucket") ∧
   heap (fetch_latest_partition (mkGlobals "missing") (Some "2024-12-31")
                                demo_world).2 = heap demo_world).
Proof.
  split.
  - split; [reflexivity|].
    apply (proj1 (@fetch_none_defaults_to_empty demo
                    (mkGlobals "truck-telemetry") (Some "2024-12-31")
                    demo_world)).
    reflexivity.
  - split; [reflexivity|].
    apply (proj2 (@fetch_none_defaults_to_empty demo (mkGlobals "missing")
                    (Some "2024-12-31") demo_world)).
    reflexivity.
Defined.

(** C5.  When [list_keys] returns a non-empty list, [fetch_latest_partition]
    returns that very list object: the reference the hook produced, holding
    the same keys in the same order, and no other list is made. *)
Theorem fetch_passes_keys_through `{External} (g : Globals)
    (ds : option string) (w : World) (l : list string) :
  s3_list_keys "minio_s3" (BUCKET g)
               ("TRUCK-001/" +:+ default "None" ds +:+ "/") (objects w)
  = ReplyKeys l →
  l ≠ [] →
  (list_keys (mkHook "minio_s3") (BUCKET g)
             ("TRUCK-001/" +:+ default "None" ds +:+ "/") w).1
  = Returns (Some (length (heap w))) ∧
  (fetch_latest_partition g ds w).1 = Returns (length (heap w)) ∧
  heap (fetch_latest_partition g ds w).2 = heap w ++ [l] ∧
  heap (fetch_latest_partition g ds w).2 !! length (heap w) = Some l.
Proof.
  intros Hr Hl. rewrite fetch_latest_partition_run. cbv zeta.
  unfold list_keys. cbn [aws_conn_id]. rewrite Hr.
  destruct l as [|k ks]; [done|].
  cbn [fst snd heap add_object add_request].
  split; [done|]. split; [done|]. split; [done|]. apply lookup_new_object.
Qed.

Lemma fetch_passes_keys_through_witness :
  @s3_list_keys demo "minio_s3" "staging"
    ("TRUCK-001/" +:+ default "None" (Some "2025-01-01") +:+ "/")
    (objects demo_world) = ReplyKeys ["TRUCK-001/2025-01-01/z"] ∧
  ["TRUCK-001/2025-01-01/z"] ≠ [] ∧
  (list_keys (mkHook "minio_s3") "staging"
             ("TRUCK-001/" +:+ default "None" (Some "2025-01-01") +:+ "/")
             demo_world).1
  = Returns (Some (length (heap demo_world))) ∧
  (fetch_latest_partition (mkGlobals "staging") (Some "2025-01-01")
                          demo_world).1
  = Returns (length (heap demo_world)) ∧
  heap (fetch_latest_partition (mkGlobals "staging") (Some "2025-01-01")
                               demo_world).2
  = heap demo_world ++ [["TRUCK-001/2025-01-01/z"]] ∧
  heap (fetch_latest_partition (mkGlobals "staging") (Some "2025-01-01")
                               demo_world).2 !! length (heap demo_world)
  = Some ["TRUCK-001/2025-01-01/z"].
Proof.
  split; [reflexivity|]. split; [discriminate|].
  apply (@fetch_passes_keys_through demo (mkGlobals "staging")
           (Some "2025-01-01") demo_world ["TRUCK-001/2025-01-01/z"]).
  - reflexivity.
  - discriminate.
Defined.

(** C10.  Called with [ds] left at [None], [fetch_latest_partition] still
    sends its listing call, with the prefix "TRUCK-001/None/", and returns a
    list unless the hook itself raises. *)
Theorem fetch_without_run_date `{External} (g : Globals) (w : World) :
  issued (fetch_latest_partition g None) w =
    [mkRequest "minio_s3" (BUCKET g) "TRUCK-001/None/"] ∧
  match s3_list_keys "minio_s3" (BUCKET g) "TRUCK-001/None/" (objects w) with
  | ReplyError e => (fetch_latest_partition g None w).1 = Raises e
  | _ => ∃ r : loc, ∃ l : list string,
           (fetch_latest_partition g None w).1 = Returns r ∧
           heap (fetch_latest_partition g None w).2 !! r = Some l
  end.
Proof.
  split; [by rewrite issued_fetch|].
  rewrite fetch_latest_partition_run. cbv zeta. cbn [default].
  change ("TRUCK-001/" +:+ "None" +:+ "/") with "TRUCK-001/None/".
  destruct (s3_list_keys "minio_s3" (BUCKET g) "TRUCK-001/None/" (objects w))
    as [|[|k ks]|e]; cbn [fst snd heap add_object add_request].
  - eexists _, _. split; [done|]. apply lookup_new_object.
  - eexists _, _. split; [done|].
    rewrite <- (lookup_new_object (heap w ++ [[]]) []). f_equal.
    rewrite length_app. cbn [length]. lia.
  - eexists _, _. split; [done|]. apply lookup_new_object.
  - done.
Qed.

(** C9.  The bucket is read from MINIO_BUCKET once, by the import, into
    [BUCKET].  Two runs of the fetch task after that import list the same
    bucket, whatever the environment has become by the time each runs. *)
Theorem bucket_fixed_at_import `{External} (w0 w1 w2 : World)
    (e1 e2 : gmap string string) (ds1 ds2 : option string) :
  ∃ g : Globals,
    import_module w0 = (Returns g, w0) ∧
    BUCKET g = default "truck-telemetry" (environ w0 !! "MINIO_BUCKET") ∧
    req_bucket <$> issued (fetch_latest_partition g ds1) (set_environ e1 w1)
    = [BUCKET g] ∧
    req_bucket <$> issued (fetch_latest_partition g ds2) (set_environ e2 w2)
    = [BUCKET g].
Proof.
  eexists. split; [apply import_module_run|].
  split; [done|]. by rewrite !issued_fetch.
Qed.

(** ** Frame *)

Lemma pipeline_run `{External} (g : Globals) (ds : option string) (w : World) :
  pipeline g ds w =
    match fetch_latest_partition g ds w with
    | (Returns keys, w') => train_model keys w'
    | (Raises e, w') => (Raises e, w')
    | (Stuck, w') => (Stuck, w')
    end.
Proof. reflexivity. Qed.

(** Everything [train_model] leaves behind: one more line, one more list
    object, or nothing at all when [keys] names no list. *)
Lemma train_model_world `{External} (w : World) (keys : loc) :
  ∃ (new_objects : list (list string)) (new_lines : list string),
    (train_model keys w).2 =
      mkWorld (environ w) (heap w ++ new_objects) (stdout w ++ new_lines)
              (requests w) (objects w).
Proof.
  destruct (heap w !! keys) as [l|] eqn:Hl.
  - rewrite (train_model_run w keys l Hl). by eexists [_], [_].
  - rewrite (train_model_stuck w keys Hl). exists [], [].
    cbn [snd]. rewrite !app_nil_r. by destruct w.
Qed.

(** Everything [fetch_latest_partition] leaves behind: one more request and
    at most two more list objects. *)
Lemma fetch_latest_partition_world `{External} (g : Globals)
    (ds : option string) (w : World) :
  ∃ (new_objects : list (list string)) (q : ListRequest),
    (fetch_latest_partition g ds w).2 =
      mkWorld (environ w) (heap w ++ new_objects) (stdout w)
              (requests w ++ [q]) (objects w).
Proof.
  rewrite fetch_latest_partition_run. cbv zeta.
  destruct (s3_list_keys _ _ _ _) as [|[|k ks]|e];
    unfold add_object, add_request;
    cbn [snd environ heap stdout requests objects].
  - by eexists [_], _.
  - eexists [_; _], _. by rewrite <- app_assoc.
  - by eexists [_], _.
  - eexists [], _. by rewrite app_nil_r.
Qed.

Lemma lookup_grown_heap (h extra : list (list string)) (r : loc) :
  is_Some (h !! r) ∨ extra = [] → (h ++ extra) !! r = h !! r.
Proof.
  intros [Hr| ->]; [|by rewrite app_nil_r].
  apply lookup_app_l. by apply lookup_lt_is_Some.
Qed.

(** C8.  Neither task writes anywhere that outlasts the run.  The fetch task
    leaves the object store, the environment and standard output as they
    were, and every list object that existed keeps its contents.  The
    training stub leaves the object store, the environment and the log of
    requests as they were, returns [None], and its input list holds the same
    keys afterwards; all it adds is a line of output and the preview list.
    The two in sequence leave the object store and the environment as they
    were. *)
Theorem nothing_persisted `{External} (g : Globals) (ds : option string)
    (keys : loc) (w : World) :
  (objects (fetch_latest_partition g ds w).2 = objects w ∧
   environ (fetch_latest_partition g ds w).2 = environ w ∧
   stdout (fetch_latest_partition g ds w).2 = stdout w ∧
   heap w `prefix_of` heap (fetch_latest_partition g ds w).2) ∧
  (objects (train_model keys w).2 = objects w ∧
   environ (train_model keys w).2 = environ w ∧
   requests (train_model keys w).2 = requests w ∧
   heap w `prefix_of` heap (train_model keys w).2 ∧
   stdout w `prefix_of` stdout (train_model keys w).2 ∧
   heap (train_model keys w).2 !! keys = heap w !! keys ∧
   (train_model keys w).1 =
     match heap w !! keys with Some _ => Returns () | None => Stuck end) ∧
  (objects (pipeline g ds w).2 = objects w ∧
   environ (pipeline g ds w).2 = environ w ∧
   heap w `prefix_of` heap (pipeline g ds w).2).
Proof.
  split; [|split].
  - destruct (fetch_latest_partition_world g ds w) as (new & q & ->).
    cbn [objects environ stdout heap]. repeat split. by exists new.
  - destruct (heap w !! keys) as [l|] eqn:Hl.
    + rewrite (train_model_run w keys l Hl).
      cbn [fst snd objects environ requests heap stdout add_line add_object].
      repeat split; [by eexists|by eexists|].
      rewrite <- Hl. apply lookup_grown_heap. left. by rewrite Hl.
    + rewrite (train_model_stuck w keys Hl). by repeat split.
  - rewrite pipeline_run.
    destruct (fetch_latest_partition_world g ds w) as (new & q & Hw).
    destruct (fetch_latest_partition g ds w) as [[r|e|] w1];
      cbn [snd] in Hw; subst w1.
    + destruct (train_model_world
                  (mkWorld (environ w) (heap w ++ new) (stdout w)
                           (requests w ++ [q]) (objects w)) r)
        as (new' & lines & ->).
      cbn [objects environ heap]. repeat split.
      exists (new ++ new'). symmetry. apply app_assoc.
    + cbn [snd objects environ heap]. repeat split. by exists new.
    + cbn [snd objects environ heap]. repeat split. by exists new.
Qed.

(** ** The workflow *)

(** C7.  The DAG runs daily and carries the tags "ml" and "minio".  It has
    the two tasks and one dependency edge, from [fetch_latest_partition] to
    [train_model]: the second task's only argument is the first task's
    output, and the first task takes no argument. *)
Theorem dag_daily_single_edge :
  schedule_interval declare_dag = "@daily" ∧
  tags declare_dag = ["ml"; "minio"] ∧
  tasks declare_dag =
    [mkOperator "fetch_latest_partition" [];
     mkOperator "train_model" [XComArg "fetch_latest_partition"]] ∧
  edges declare_dag = [("fetch_latest_partition", "train_model")] ∧
  ∀ (E : External) (g : Globals) (ds : option string),
    pipeline g ds = (fetch_latest_partition g ds ≫= train_model).
Proof. repeat split. Qed.

(** * Further properties of the two tasks *)

(** ** Strings *)

Lemma append_inj_l (p s t : string) : p +:+ s = p +:+ t → s = t.
Proof.
  induction p as [|a p IH]; [done|].
  intros Hst. apply IH. by injection Hst.
Qed.

Lemma append_char_inj (c : ascii) (s t : string) :
  s +:+ String c "" = t +:+ String c "" → s = t.
Proof.
  revert t. induction s as [|a s IH]; intros [|b t] Hst.
  - done.
  - injection Hst as _ Hst. by destruct t.
  - injection Hst as _ Hst. by destruct s.
  - injection Hst as -> Hst. f_equal. by apply IH.
Qed.

(** ** One whole run *)

(** What line 31 does from the listing call to the printed line, by the
    hook's answer. *)
Lemma pipeline_result `{External} (g : Globals) (ds : option string)
    (w : World) :
  let prefix := "TRUCK-001/" +:+ default "None" ds +:+ "/" in
  let w1 := add_request (mkRequest "minio_s3" (BUCKET g) prefix) w in
  let line := λ l : list string,
    fstring [Lit "Training on "; Val (PInt (length l)); Lit " objects: ";
             Val (PList (take 5 l))] in
  pipeline g ds w =
    match s3_list_keys "minio_s3" (BUCKET g) prefix (objects w) with
    | ReplyNone =>
        (Returns (), add_line (line []) (add_object [] (add_object [] w1)))
    | ReplyKeys [] =>
        (Returns (),
         add_line (line []) (add_object [] (add_object [] (add_object [] w1))))
    | ReplyKeys (k :: ks) =>
        (Returns (),
         add_line (line (k :: ks))
                  (add_object (take 5 (k :: ks)) (add_object (k :: ks) w1)))
    | ReplyError e => (Raises e, w1)
    end.
Proof.
  intros prefix w1 line.
  rewrite pipeline_run, fetch_latest_partition_run. fold prefix w1.
  destruct (s3_list_keys "minio_s3" (BUCKET g) prefix (objects w))
    as [|[|k ks]|e]; [| | |done].
  - apply (train_model_run (add_object [] w1) (length (heap w)) []).
    apply lookup_new_object.
  - apply (train_model_run (add_object [] (add_object [] w1))
                           (S (length (heap w))) []).
    cbn [heap add_object add_request w1].
    rewrite <- (lookup_new_object (heap w ++ [[]]) []). f_equal.
    rewrite length_app. cbn [length]. lia.
  - apply (train_model_run (add_object (k :: ks) w1) (length (heap w))
                           (k :: ks)).
    apply lookup_new_object.
Qed.

(** X1.  A whole run sends exactly one listing request, and it ends in one
    of two ways: with the hook's exception when the hook raised, normally
    otherwise.  The stub never fails on what the fetch task hands it. *)
Theorem pipeline_fails_only_with_hook `{External} (g : Globals)
    (ds : option string) (w : World) :
  issued (pipeline g ds) w =
    [mkRequest "minio_s3" (BUCKET g)
               ("TRUCK-001/" +:+ default "None" ds +:+ "/")] ∧
  (pipeline g ds w).1 =
    match s3_list_keys "minio_s3" (BUCKET g)
                       ("TRUCK-001/" +:+ default "None" ds +:+ "/")
                       (objects w) with
    | ReplyError e => Raises e
    | _ => Returns ()
    end.
Proof.
  unfold issued. rewrite pipeline_result. cbv zeta.
  destruct (s3_list_keys _ _ _ _) as [|[|k ks]|e];
    cbn [fst snd requests add_line add_object add_request];
    by rewrite drop_app_length.
Qed.

(** X2.  When the hook returns a non-empty list of keys, the run prints one
    line, and that line reports the number of keys the hook returned and
    previews the first five of them. *)
Theorem pipeline_prints_listing_summary `{External} (g : Globals)
    (ds : option string) (w : World) (l : list string) :
  s3_list_keys "minio_s3" (BUCKET g)
               ("TRUCK-001/" +:+ default "None" ds +:+ "/") (objects w)
  = ReplyKeys l →
  l ≠ [] →
  printed (pipeline g ds) w =
    [fstring [Lit "Training on "; Val (PInt (length l)); Lit " objects: ";
              Val (PList (take 5 l))]] ∧
  count_field (fstring [Lit "Training on "; Val (PInt (length l));
                        Lit " objects: "; Val (PList (take 5 l))])
  = Some (pretty (length l)).
Proof.
  intros Hr Hl. split.
  - unfold printed. rewrite pipeline_result. cbv zeta. rewrite Hr.
    destruct l as [|k ks]; [done|].
    cbn [snd stdout add_line add_object add_request].
    by rewrite drop_app_length.
  - unfold fstring, fold_right. cbn [py_format]. apply count_field_line.
Qed.

Lemma pipeline_prints_listing_summary_witness :
  @s3_list_keys demo "minio_s3" "truck-telemetry"
    ("TRUCK-001/" +:+ default "None" (Some "2025-01-01") +:+ "/")
    (objects demo_world)
  = ReplyKeys ["TRUCK-001/2025-01-01/a"; "TRUCK-001/2025-01-01/b";
               "TRUCK-001/2025-01-01/c"; "TRUCK-001/2025-01-01/d";
               "TRUCK-001/2025-01-01/e"; "TRUCK-001/2025-01-01/f"] ∧
  ["TRUCK-001/2025-01-01/a"; "TRUCK-001/2025-01-01/b";
   "TRUCK-001/2025-01-01/c"; "TRUCK-001/2025-01-01/d";
   "TRUCK-001/2025-01-01/e"; "TRUCK-001/2025-01-01/f"] ≠ [] ∧
  printed (pipeline (mkGlobals "truck-telemetry") (Some "2025-01-01"))
          demo_world
  = ["Training on 6 objects: ['TRUCK-001/2025-01-01/a', 'TRUCK-001/2025-01-01/b', 'TRUCK-001/2025-01-01/c', 'TRUCK-001/2025-01-01/d', 'TRUCK-001/2025-01-01/e']"].
Proof.
  split; [reflexivity|]. split; [discriminate|].
  apply (proj1 (@pipeline_prints_listing_summary demo
                  (mkGlobals "truck-telemetry") (Some "2025-01-01") demo_world
                  ["TRUCK-001/2025-01-01/a"; "TRUCK-001/2025-01-01/b";
                   "TRUCK-001/2025-01-01/c"; "TRUCK-001/2025-01-01/d";
                   "TRUCK-001/2025-01-01/e"; "TRUCK-001/2025-01-01/f"]
                  eq_refl ltac:(discriminate))).
Defined.

(** X3.  When the partition is empty, whether the hook says so with [None]
    or with an empty list, the run prints the line
    "Training on 0 objects: []". *)
Theorem pipeline_empty_partition `{External} (g : Globals)
    (ds : option string) (w : World) :
  s3_list_keys "minio_s3" (BUCKET g)
               ("TRUCK-001/" +:+ default "None" ds +:+ "/") (objects w)
  = ReplyNone ∨
  s3_list_keys "minio_s3" (BUCKET g)
               ("TRUCK-001/" +:+ default "None" ds +:+ "/") (objects w)
  = ReplyKeys [] →
  printed (pipeline g ds) w = ["Training on 0 objects: []"].
Proof.
  intros Hr. unfold printed. rewrite pipeline_result. cbv zeta.
  destruct Hr as [-> | ->];
    cbn [snd stdout add_line add_object add_request];
    by rewrite drop_app_length.
Qed.

Lemma pipeline_empty_partition_witness :
  (@s3_list_keys demo "minio_s3" "truck-telemetry"
     ("TRUCK-001/" +:+ default "None" None +:+ "/") (objects demo_world)
   = ReplyNone ∨
   @s3_list_keys demo "minio_s3" "truck-telemetry"
     ("TRUCK-001/" +:+ default "None" None +:+ "/") (objects demo_world)
   = ReplyKeys []) ∧
  printed (pipeline (mkGlobals "truck-telemetry") None) demo_world
  = ["Training on 0 objects: []"].
Proof.
  split; [left; reflexivity|].
  apply (@pipeline_empty_partition demo (mkGlobals "truck-telemetry") None
           demo_world).
  left. reflexivity.
Defined.

(** X4.  When the hook raises, the stub does not run: nothing is printed and
    no list object is made. *)
Theorem pipeline_hook_error_prints_nothing `{External} (g : Globals)
    (ds : option string) (w : World) (e : PyExc) :
  s3_list_keys "minio_s3" (BUCKET g)
               ("TRUCK-001/" +:+ default "None" ds +:+ "/") (objects w)
  = ReplyError e →
  (pipeline g ds w).1 = Raises e ∧
  printed (pipeline g ds) w = [] ∧
  stdout (pipeline g ds w).2 = stdout w ∧
  heap (pipeline g ds w).2 = heap w.
Proof.
  intros Hr. unfold printed. rewrite pipeline_result. cbv zeta. rewrite Hr.
  cbn [fst snd stdout heap add_request].
  repeat split. by rewrite drop_all.
Qed.

Lemma pipeline_hook_error_prints_nothing_witness :
  @s3_list_keys demo "minio_s3" "missing"
    ("TRUCK-001/" +:+ default "None" (Some "2025-01-01") +:+ "/")
    (objects demo_world)
  = ReplyError (mkExc "ClientError" "NoSuchBucket") ∧
  (pipeline (mkGlobals "missing") (Some "2025-01-01") demo_world).1
  = Raises (mkExc "ClientError" "NoSuchBucket") ∧
  printed (pipeline (mkGlobals "missing") (Some "2025-01-01")) demo_world
  = [] ∧
  stdout (pipeline (mkGlobals "missing") (Some "2025-01-01") demo_world).2
  = stdout demo_world ∧
  heap (pipeline (mkGlobals "missing") (Some "2025-01-01") demo_world).2
  = heap demo_world.
Proof.
  split; [reflexivity|].
  apply (@pipeline_hook_error_prints_nothing demo (mkGlobals "missing")
           (Some "2025-01-01") demo_world
           (mkExc "ClientError" "NoSuchBucket")).
  reflexivity.
Defined.

(** ** The fetch task, further *)

(** X5.  When the hook returns an empty list, [fetch_latest_partition] does
    not return the hook's list: [or] finds it false and a second, new empty
    list is returned, while the hook's list stays in the heap, empty. *)
Theorem fetch_empty_reply_returns_new_list `{External} (g : Globals)
    (ds : option string) (w : World) :
  s3_list_keys "minio_s3" (BUCKET g)
               ("TRUCK-001/" +:+ default "None" ds +:+ "/") (objects w)
  = ReplyKeys [] →
  ∃ hooks_list returned : loc,
    (list_keys (mkHook "minio_s3") (BUCKET g)
               ("TRUCK-001/" +:+ default "None" ds +:+ "/") w).1
    = Returns (Some hooks_list) ∧
    (fetch_latest_partition g ds w).1 = Returns returned ∧
    returned ≠ hooks_list ∧
    heap w !! returned = None ∧
    heap (fetch_latest_partition g ds w).2 !! hooks_list = Some [] ∧
    heap (fetch_latest_partition g ds w).2 !! returned = Some [].
Proof.
  intros Hr. exists (length (heap w)), (S (length (heap w))).
  rewrite fetch_latest_partition_run. cbv zeta.
  unfold list_keys. cbn [aws_conn_id]. rewrite Hr.
  cbn [fst snd heap add_object add_request].
  split; [done|]. split; [done|]. split; [lia|].
  split; [apply lookup_ge_None; lia|].
  split.
  - rewrite lookup_app_l by (rewrite length_app; cbn [length]; lia).
    apply lookup_new_object.
  - rewrite <- (lookup_new_object (heap w ++ [[]]) []). f_equal.
    rewrite length_app. cbn [length]. lia.
Qed.

Lemma fetch_empty_reply_returns_new_list_witness :
  @s3_list_keys demo_empty "minio_s3" "truck-telemetry"
    ("TRUCK-001/" +:+ default "None" (Some "2025-01-01") +:+ "/")
    (objects demo_empty_world) = ReplyKeys [] ∧
  ∃ hooks_list returned : loc,
    (list_keys (mkHook "minio_s3") "truck-telemetry"
               ("TRUCK-001/" +:+ default "None" (Some "2025-01-01") +:+ "/")
               demo_empty_world).1
    = Returns (Some hooks_list) ∧
    (fetch_latest_partition (mkGlobals "truck-telemetry") (Some "2025-01-01")
                            demo_empty_world).1 = Returns returned ∧
    returned ≠ hooks_list ∧
    heap demo_empty_world !! returned = None ∧
    heap (fetch_latest_partition (mkGlobals "truck-telemetry")
            (Some "2025-01-01") demo_empty_world).2 !! hooks_list = Some [] ∧
    heap (fetch_latest_partition (mkGlobals "truck-telemetry")
            (Some "2025-01-01") demo_empty_world).2 !! returned = Some [].
Proof.
  split; [reflexivity|].
  apply (@fetch_empty_reply_returns_new_list demo_empty
           (mkGlobals "truck-telemetry") (Some "2025-01-01") demo_empty_world).
  reflexivity.
Defined.

(** X6.  Two runs of the fetch task of one import send the same listing
    request exactly when their run dates format to the same text.  So two
    different date strings never share a prefix, while a missing date and
    the string "None" do. *)
Theorem same_listing_iff_same_date `{External} (g : Globals)
    (ds1 ds2 : option string) (w1 w2 : World) :
  issued (fetch_latest_partition g ds1) w1
  = issued (fetch_latest_partition g ds2) w2
  ↔ default "None" ds1 = default "None" ds2.
Proof.
  rewrite !issued_fetch. split.
  - intros [= Hp]. apply append_inj_l in Hp. by apply append_char_inj in Hp.
  - by intros ->.
Qed.

(** ** The training stub, further *)

(** X7.  [train_model] does not use up its input: called twice on the same
    list it returns normally both times and prints the same line twice. *)
Theorem train_model_twice `{External} (w : World) (keys : loc)
    (l : list string) :
  heap w !! keys = Some l →
  ((_ ← train_model keys; train_model keys) w).1 = Returns () ∧
  printed (_ ← train_model keys; train_model keys) w =
    [fstring [Lit "Training on "; Val (PInt (length l)); Lit " objects: ";
              Val (PList (take 5 l))];
     fstring [Lit "Training on "; Val (PInt (length l)); Lit " objects: ";
              Val (PList (take 5 l))]].
Proof.
  intros Hl. unfold printed, mbind, M_bind, bind.
  rewrite (train_model_run w keys l Hl).
  rewrite (train_model_run _ keys l).
  - cbn [fst snd stdout add_line add_object]. split; [done|].
    rewrite <- app_assoc. by rewrite drop_app_length.
  - cbn [heap add_line add_object]. rewrite <- Hl.
    apply lookup_grown_heap. left. by rewrite Hl.
Qed.

Lemma train_model_twice_witness :
  heap demo_world !! 0 = Some ["x"; "y"] ∧
  ((_ ← @train_model demo 0; train_model 0) demo_world).1 = Returns () ∧
  printed (_ ← @train_model demo 0; train_model 0) demo_world =
    [@fstring demo [Lit "Training on "; Val (PInt (length ["x"; "y"]));
                    Lit " objects: "; Val (PList (take 5 ["x"; "y"]))];
     @fstring demo [Lit "Training on "; Val (PInt (length ["x"; "y"]));
                    Lit " objects: "; Val (PList (take 5 ["x"; "y"]))]].
Proof.
  split; [reflexivity|].
  apply (@train_model_twice demo demo_world 0 ["x"; "y"]).
  reflexivity.
Defined.

(** X8.  The printed line depends on the input only through its length and
    its first five keys: two lists of the same length that agree on their
    first five keys give the same line, whatever comes after. *)
Theorem train_model_line_ignores_tail `{External} (w1 w2 : World)
    (keys1 keys2 : loc) (l1 l2 : list string) :
  heap w1 !! keys1 = Some l1 →
  heap w2 !! keys2 = Some l2 →
  length l1 = length l2 →
  take 5 l1 = take 5 l2 →
  printed (train_model keys1) w1 = printed (train_model keys2) w2.
Proof.
  intros H1 H2 Hlen Htake.
  rewrite (printed_train_model w1 keys1 l1 H1).
  rewrite (printed_train_model w2 keys2 l2 H2).
  by rewrite Hlen, Htake.
Qed.

Lemma train_model_line_ignores_tail_witness :
  heap (add_object ["a"; "b"; "c"; "d"; "e"; "f"] demo_world) !! 1
  = Some ["a"; "b"; "c"; "d"; "e"; "f"] ∧
  heap (add_object ["a"; "b"; "c"; "d"; "e"; "g"] demo_world) !! 1
  = Some ["a"; "b"; "c"; "d"; "e"; "g"] ∧
  length ["a"; "b"; "c"; "d"; "e"; "f"] = length ["a"; "b"; "c"; "d"; "e"; "g"] ∧
  take 5 ["a"; "b"; "c"; "d"; "e"; "f"] = take 5 ["a"; "b"; "c"; "d"; "e"; "g"] ∧
  printed (@train_model demo 1)
          (add_object ["a"; "b"; "c"; "d"; "e"; "f"] demo_world)
  = printed (@train_model demo 1)
            (add_object ["a"; "b"; "c"; "d"; "e"; "g"] demo_world).
Proof.
  split; [reflexivity|]. split; [reflexivity|].
  split; [reflexivity|]. split; [reflexivity|].
  apply (@train_model_line_ignores_tail demo
           (add_object ["a"; "b"; "c"; "d"; "e"; "f"] demo_world)
           (add_object ["a"; "b"; "c"; "d"; "e"; "g"] demo_world) 1 1
           ["a"; "b"; "c"; "d"; "e"; "f"] ["a"; "b"; "c"; "d"; "e"; "g"]);
    reflexivity.
Defined.
